(** * RainTomorrow: the Streamlit form of [app.py]

    A shallow embedding of the script [app.py]: the values returned by its
    widgets, the dictionary [input_data] it fills, the list comprehension
    that turns the dictionary into the model's input, the call of the
    loaded model and what the script writes to the page. *)

From Stdlib Require Import ZArith Floats.PrimFloat.
From stdpp Require Import gmap strings list fin_maps.

Local Open Scope string_scope.
Local Open Scope Z_scope.
Local Open Scope list_scope.

(* The decimal defaults of the widgets are read, as Python reads them, as
   the nearest binary64 value. *)
#[local] Set Warnings "-inexact-float".

(** ** Python values and exceptions *)

(** What [input_data] holds: the floats of [st.number_input] (called with a
    float [value]), the ints of [st.slider] (called with int bounds) and the
    int literals [0] and [1].  A Python float is an IEEE 754 binary64. *)
Inductive value : Type :=
| VFloat (f : float)
| VInt (z : Z).

(** What the model's [predict] may hand back as an element of its result. *)
Inductive label : Type :=
| LStr (s : string)
| LInt (z : Z)
| LFloat (f : float).

(** An instance of a subclass of [Exception]: the classes of
    [type(e).__mro__], its own class first, each by its name, and the text
    [str(e)] gives. *)
Record exn : Type := Exn { exn_mro : list string; exn_str : string }.

(** [isinstance(e, cls)]: [cls] is the class of [e] or one of the classes it
    inherits from. *)
Definition isinstance (e : exn) (cls : string) : bool :=
  bool_decide (cls ∈ exn_mro e).

(** [d[k]] on a dict without [k].  [str] of a [KeyError] is the [repr] of the
    key, which for a key without quotes or escapes is the key in single
    quotes. *)
Definition KeyError (k : string) : exn :=
  {| exn_mro := ["KeyError"; "LookupError"; "Exception"; "BaseException";
                 "object"];
     exn_str := "'" +:+ k +:+ "'" |}.

(** [a[0]] on an array of size 0. *)
Definition IndexError : exn :=
  {| exn_mro := ["IndexError"; "LookupError"; "Exception"; "BaseException";
                 "object"];
     exn_str := "index 0 is out of bounds for axis 0 with size 0" |}.

Definition FileNotFoundError (msg : string) : exn :=
  {| exn_mro := ["FileNotFoundError"; "OSError"; "Exception";
                 "BaseException"; "object"];
     exn_str := msg |}.

Definition ValueError (msg : string) : exn :=
  {| exn_mro := ["ValueError"; "Exception"; "BaseException"; "object"];
     exn_str := msg |}.

(** An expression either has a value or raises. *)
Definition result (A : Type) : Type := exn + A.

(** [d[k]] *)
Definition getitem (d : gmap string value) (k : string) : result value :=
  match d !! k with
  | Some v => inr v
  | None => inl (KeyError k)
  end.

(** [[f(x) for x in xs]]: the elements are evaluated from left to right and
    the first exception ends the comprehension. *)
Fixpoint comprehension {A B : Type} (f : A -> result B) (xs : list A)
  : result (list B) :=
  match xs with
  | [] => inr []
  | x :: xs' =>
      match f x with
      | inl e => inl e
      | inr v =>
          match comprehension f xs' with
          | inl e => inl e
          | inr vs => inr (v :: vs)
          end
      end
  end.

(** ** The constants of the script *)

Definition features_list : list string :=
  [ "MinTemp"; "MaxTemp"; "Rainfall"; "WindGustSpeed"; "WindSpeed9am";
    "WindSpeed3pm"; "Humidity9am"; "Humidity3pm"; "Pressure9am";
    "Pressure3pm"; "Cloud9am"; "Cloud3pm"; "Temp9am"; "Temp3pm"; "RainToday";
    "Month";
    "WindGustDir_ENE"; "WindGustDir_ESE"; "WindGustDir_N"; "WindGustDir_NE";
    "WindGustDir_NNE"; "WindGustDir_NNW"; "WindGustDir_NW"; "WindGustDir_S";
    "WindGustDir_SE"; "WindGustDir_SSE"; "WindGustDir_SSW"; "WindGustDir_SW";
    "WindGustDir_W"; "WindGustDir_WNW"; "WindGustDir_WSW" ].

Definition wind_directions : list string :=
  [ "ENE"; "ESE"; "N"; "NE"; "NNE"; "NNW"; "NW"; "S"; "SE"; "SSE";
    "SSW"; "SW"; "W"; "WNW"; "WSW" ].

(** ** The widgets *)

(** What the widgets of one run of the script return: one field per
    [st.number_input] (a float), per [st.slider] (an int) and per
    [st.radio] (the chosen option). *)
Record observation : Type := Observation {
  MinTemp : float;
  MaxTemp : float;
  Rainfall : float;
  Humidity9am : Z;
  Humidity3pm : Z;
  WindGustSpeed : float;
  WindSpeed9am : float;
  WindSpeed3pm : float;
  Pressure9am : float;
  Pressure3pm : float;
  Cloud9am : Z;
  Cloud3pm : Z;
  Temp9am : float;
  Temp3pm : float;
  rain_today_option : string;
  Month : Z;
  selected_wind_dir : string
}.

(** The values the widgets show before the user touches them. *)
Definition default_observation : observation :=
  {| MinTemp := 13.4; MaxTemp := 22.9; Rainfall := 0.6;
     Humidity9am := 71; Humidity3pm := 22;
     WindGustSpeed := 44.0; WindSpeed9am := 20.0; WindSpeed3pm := 24.0;
     Pressure9am := 1007.7; Pressure3pm := 1007.1;
     Cloud9am := 8; Cloud3pm := 5;
     Temp9am := 16.9; Temp3pm := 21.8;
     rain_today_option := "No";
     Month := 12;
     selected_wind_dir := "None" |}.

(** What the widgets can return: a slider stays between its bounds and a
    radio returns one of its options.  The number inputs are created
    without [min_value] and [max_value]. *)
Definition slider_range (lo hi v : Z) : bool := (lo <=? v) && (v <=? hi).

Definition radio_option (options : list string) (v : string) : bool :=
  bool_decide (v ∈ options).

Definition valid_observation (o : observation) : bool :=
  slider_range 0 100 (Humidity9am o) && slider_range 0 100 (Humidity3pm o)
  && slider_range 0 9 (Cloud9am o) && slider_range 0 9 (Cloud3pm o)
  && radio_option ["No"; "Yes"] (rain_today_option o)
  && slider_range 1 12 (Month o)
  && radio_option ("None" :: wind_directions) (selected_wind_dir o).

(** ** Filling [input_data] *)

(** The loop [for direction in wind_directions: input_data[...] = 0], on
    any list of directions. *)
Definition reset_flags (directions : list string) (d : gmap string value)
  : gmap string value :=
  foldl (fun d direction => <["WindGustDir_" +:+ direction := VInt 0]> d)
        d directions.

(** The assignments of the script in the order it makes them, on a
    dictionary [d0]: the sixteen widget values, the loop that sets every
    direction flag to [0], and the flag of the selected direction. *)
Definition assign (d0 : gmap string value) (o : observation)
  : gmap string value :=
  let d := <["MinTemp" := VFloat (MinTemp o)]> d0 in
  let d := <["MaxTemp" := VFloat (MaxTemp o)]> d in
  let d := <["Rainfall" := VFloat (Rainfall o)]> d in
  let d := <["Humidity9am" := VInt (Humidity9am o)]> d in
  let d := <["Humidity3pm" := VInt (Humidity3pm o)]> d in
  let d := <["WindGustSpeed" := VFloat (WindGustSpeed o)]> d in
  let d := <["WindSpeed9am" := VFloat (WindSpeed9am o)]> d in
  let d := <["WindSpeed3pm" := VFloat (WindSpeed3pm o)]> d in
  let d := <["Pressure9am" := VFloat (Pressure9am o)]> d in
  let d := <["Pressure3pm" := VFloat (Pressure3pm o)]> d in
  let d := <["Cloud9am" := VInt (Cloud9am o)]> d in
  let d := <["Cloud3pm" := VInt (Cloud3pm o)]> d in
  let d := <["Temp9am" := VFloat (Temp9am o)]> d in
  let d := <["Temp3pm" := VFloat (Temp3pm o)]> d in
  let d := <["RainToday" :=
               VInt (if String.eqb (rain_today_option o) "Yes" then 1 else 0)]> d in
  let d := <["Month" := VInt (Month o)]> d in
  let d := reset_flags wind_directions d in
  if negb (String.eqb (selected_wind_dir o) "None")
  then <["WindGustDir_" +:+ selected_wind_dir o := VInt 1]> d
  else d.

(** [input_data = {}] and then the assignments. *)
Definition input_data (o : observation) : gmap string value := assign ∅ o.

(** [[input_data[feature] for feature in features_list]] *)
Definition model_input_values (d : gmap string value) : result (list value) :=
  comprehension (getitem d) features_list.

(** The float64 of a Python int.  The doubling is exact as long as the int
    is below 2^53 in absolute value, which every int of a slider and every
    flag is; the rounding of larger ints is not modelled. *)
Fixpoint float_of_positive (p : positive) : float :=
  match p with
  | xH => 1
  | xO p' => PrimFloat.mul 2 (float_of_positive p')
  | xI p' => PrimFloat.add (PrimFloat.mul 2 (float_of_positive p')) 1
  end.

Definition float_of_int (z : Z) : float :=
  match z with
  | Z0 => 0
  | Zpos p => float_of_positive p
  | Zneg p => PrimFloat.opp (float_of_positive p)
  end.

(** What NumPy stores for an element of a list of Python floats and ints:
    the array's element type is float64, a float is stored as it is and an
    int as the float64 of the same number. *)
Definition float64 (v : value) : float :=
  match v with
  | VFloat f => f
  | VInt z => float_of_int z
  end.

(** [np.array(model_input_values).reshape(1, -1)]: a float64 array of one
    row that holds the elements of the list in the list's order. *)
Definition final_model_input (vs : list value) : list (list float) :=
  [map float64 vs].

(** ** The script *)

(** The loaded model, as far as the script uses it: its [predict] method,
    which returns an array of labels or raises. *)
Record model : Type := Model {
  predict : list (list float) -> result (list label)
}.

(** What a run of the script does that can be seen from outside: the
    elements it writes to the page, in order, and its calls of the model.
    The widgets themselves and the column layout are not listed: a widget
    appears in the run through the value it returns. *)
Inductive action : Type :=
| st_sidebar_success (body : string)
| st_error (body : string)
| st_title (body : string)
| st_markdown (body : string)
| st_header (body : string)
| st_subheader (body : string)
| st_spinner (text : string)
| st_success (body : string)
| st_balloons
| st_snow
| st_metric (label value delta : string)
| st_warning (body : string)
| st_caption (body : string)
| call_predict (X : list (list float)).

(** How a piece of the script ends: it goes on with a value, it raises, or
    [st.stop()] ends the run. *)
Inductive outcome (A : Type) : Type :=
| Done (a : A)
| Raise (e : exn)
| Stop.
Arguments Done {A} a.
Arguments Raise {A} e.
Arguments Stop {A}.

(** A piece of the script: from the actions so far to its outcome and the
    actions so far after it. *)
Definition script (A : Type) : Type := list action -> outcome A * list action.

#[global] Instance script_ret : MRet script := fun A a t => (Done a, t).

#[global] Instance script_bind : MBind script := fun A B k c t =>
  match c t with
  | (Done a, t') => k a t'
  | (Raise e, t') => (Raise e, t')
  | (Stop, t') => (Stop, t')
  end.

Definition emit (a : action) : script unit := fun t => (Done tt, t ++ [a]).

Definition st_stop {A : Type} : script A := fun t => (Stop, t).

(** An expression inside the script. *)
Definition eval {A : Type} (r : result A) : script A :=
  fun t => match r with inl e => (Raise e, t) | inr a => (Done a, t) end.

(** [try: body / except Exception as e: handler] *)
Definition try_except {A : Type} (body : script A) (handler : exn -> script A)
  : script A :=
  fun t =>
    match body t with
    | (Raise e, t') => handler e t'
    | r => r
    end.

(** [model.predict(X)] *)
Definition model_predict (m : model) (X : list (list float))
  : script (list label) :=
  emit (call_predict X) ;; eval (predict m X).

(** [prediction[0]] *)
Definition first_label (prediction : list label) : result label :=
  match prediction with
  | [] => inl IndexError
  | l :: _ => inr l
  end.

(** [l == 'No'] *)
Definition is_No (l : label) : bool :=
  match l with
  | LStr s => String.eqb s "No"
  | _ => false
  end.

(** The [try] at the top of the script, on what [jl.load('rain_model.pkl')]
    does in the run. *)
Definition load_model (jl_load : result model) : script model :=
  try_except
    (m ← eval jl_load;
     emit (st_sidebar_success "Model 'rain_model.pkl' loaded successfully!");;
     mret m)
    (fun e =>
       if isinstance e "FileNotFoundError"
       then emit (st_error "Error: 'rain_model.pkl' not found. Please ensure the model file is in the same directory as this script.");;
            st_stop
       else emit (st_error ("Error loading the model: " +:+ exn_str e));;
            st_stop).

(** The body of [if st.button('Predict Rain Tomorrow'):]. *)
Definition predict_rain_tomorrow (m : model) (d : gmap string value)
  : script unit :=
  vs ← eval (model_input_values d);
  let X := final_model_input vs in
  emit (st_spinner "Making prediction...");;
  try_except
    (prediction ← model_predict m X;
     emit (st_success "Prediction Complete!");;
     l ← eval (first_label prediction);
     if is_No l
     then emit st_balloons;;
          emit (st_metric "Will it rain tomorrow?" "No ☀️" "Clear skies expected!");;
          emit (st_markdown "Enjoy your day!")
     else emit st_snow;;
          emit (st_metric "Will it rain tomorrow?" "Yes 🌧️"
                  "Rain is likely! Don't forget your umbrella!");;
          emit (st_markdown "Be prepared for some wet weather."))
    (fun e =>
       emit (st_error ("An error occurred during prediction: " +:+ exn_str e));;
       emit (st_warning "Please check your input values and ensure they are within a reasonable range for the model.")).

(** One run of the script: what loading the model does, what the widgets
    return, and whether the button was pressed. *)
Definition app_py (jl_load : result model) (o : observation) (button : bool)
  : script unit :=
  m ← load_model jl_load;
  emit (st_title "☔ Weather Prediction in Australia 🇦🇺");;
  emit (st_markdown "
Enter the weather parameters below to predict if it will rain tomorrow.
");;
  emit (st_header "Daily Weather Measurements");;
  emit (st_subheader "Temperature, Rainfall & Humidity");;
  emit (st_subheader "Wind & Pressure");;
  emit (st_subheader "Additional Measurements");;
  emit (st_subheader "Wind Gust Direction");;
  let d := input_data o in
  emit (st_markdown "---");;
  (if button then predict_rain_tomorrow m d else mret tt);;
  emit (st_markdown "---");;
  emit (st_caption "This application uses a pre-trained machine learning model (`rain_model.pkl`) to predict rainfall in Australia based on the provided weather parameters.").

(** A run from an empty page. *)
Definition run (jl_load : result model) (o : observation) (button : bool)
  : outcome unit * list action :=
  app_py jl_load o button [].

(** Streamlit runs the script again, from its first line, at every
    interaction; the script keeps nothing in [st.session_state]. *)
Definition session (jl_load : result model) (interactions : list (observation * bool))
  : list (outcome unit * list action) :=
  map (fun '(o, button) => run jl_load o button) interactions.

(** ** Reading the list *)

(** [v] is the int [n]. *)
Definition is_int (n : Z) (v : value) : bool :=
  match v with
  | VInt z => z =? n
  | VFloat _ => false
  end.

(** The observation [o] with its four humidity and cloud sliders moved. *)
Definition move_sliders (o : observation) (h9 h3 c9 c3 : Z) : observation :=
  {| MinTemp := MinTemp o; MaxTemp := MaxTemp o; Rainfall := Rainfall o;
     Humidity9am := h9; Humidity3pm := h3;
     WindGustSpeed := WindGustSpeed o; WindSpeed9am := WindSpeed9am o;
     WindSpeed3pm := WindSpeed3pm o;
     Pressure9am := Pressure9am o; Pressure3pm := Pressure3pm o;
     Cloud9am := c9; Cloud3pm := c3;
     Temp9am := Temp9am o; Temp3pm := Temp3pm o;
     rain_today_option := rain_today_option o;
     Month := Month o;
     selected_wind_dir := selected_wind_dir o |}.

(** The calls of the model among the actions of a run. *)
Definition predict_calls (t : list action) : list (list (list float)) :=
  omap (λ a, match a with call_predict X => Some X | _ => None end) t.

(** What the script writes before it reaches the button, when the model
    loads. *)
Definition page_top : list action :=
  [ st_sidebar_success "Model 'rain_model.pkl' loaded successfully!";
    st_title "☔ Weather Prediction in Australia 🇦🇺";
    st_markdown "
Enter the weather parameters below to predict if it will rain tomorrow.
";
    st_header "Daily Weather Measurements";
    st_subheader "Temperature, Rainfall & Humidity";
    st_subheader "Wind & Pressure";
    st_subheader "Additional Measurements";
    st_subheader "Wind Gust Direction";
    st_markdown "---" ].

(** What the script writes after the button's block. *)
Definition page_bottom : list action :=
  [ st_markdown "---";
    st_caption "This application uses a pre-trained machine learning model (`rain_model.pkl`) to predict rainfall in Australia based on the provided weather parameters." ].

(** What the button's block writes after the call of the model. *)
Definition prediction_shown (r : result (list label)) : list action :=
  match r with
  | inl e =>
      [ st_error ("An error occurred during prediction: " +:+ exn_str e);
        st_warning "Please check your input values and ensure they are within a reasonable range for the model." ]
  | inr [] =>
      [ st_success "Prediction Complete!";
        st_error ("An error occurred during prediction: " +:+ exn_str IndexError);
        st_warning "Please check your input values and ensure they are within a reasonable range for the model." ]
  | inr (l :: _) =>
      st_success "Prediction Complete!"
      :: (if is_No l
          then [ st_balloons;
                 st_metric "Will it rain tomorrow?" "No ☀️" "Clear skies expected!";
                 st_markdown "Enjoy your day!" ]
          else [ st_snow;
                 st_metric "Will it rain tomorrow?" "Yes 🌧️"
                   "Rain is likely! Don't forget your umbrella!";
                 st_markdown "Be prepared for some wet weather." ])
  end.

(** Models for the examples: one whose [predict] raises and one whose
    [predict] returns an array that holds one label. *)
Definition failing_model (e : exn) : model := Model (λ _, inl e).

Definition constant_model (l : label) : model := Model (λ _, inr [l]).

(** ** The default form *)

Example default_vector :
  model_input_values (input_data default_observation)
  = inr [ VFloat 13.4; VFloat 22.9; VFloat 0.6; VFloat 44.0; VFloat 20.0;
          VFloat 24.0; VInt 71; VInt 22; VFloat 1007.7; VFloat 1007.1;
          VInt 8; VInt 5; VFloat 16.9; VFloat 21.8; VInt 0; VInt 12;
          VInt 0; VInt 0; VInt 0; VInt 0; VInt 0; VInt 0; VInt 0; VInt 0;
          VInt 0; VInt 0; VInt 0; VInt 0; VInt 0; VInt 0; VInt 0 ].
Proof. vm_compute. reflexivity. Qed.

(** On the ints a slider can return, [float_of_int] counts in steps of
    exactly 1.0 from 0.0. *)
Lemma float_of_int_succ (z : Z) :
  0 ≤ z ≤ 100 →
  float_of_int 0 = 0%float
  ∧ float_of_int (z + 1) = PrimFloat.add (float_of_int z) 1.
Proof.
  intros Hz. split; [reflexivity|].
  assert (z ∈ map Z.of_nat (seq 0 101)) as Hin.
  { apply list_elem_of_fmap. exists (Z.to_nat z).
    split; [lia|apply elem_of_seq; lia]. }
  cbn in Hin.
  repeat (apply elem_of_cons in Hin as [->|Hin]; [reflexivity|]).
  by apply elem_of_nil in Hin.
Qed.

(** ** Lookups in the filled dictionary *)

Section lookups.
Implicit Types (d : gmap string value) (k : string) (o : observation).

Lemma flag_key_inj (a b : string) :
  "WindGustDir_" +:+ a = "WindGustDir_" +:+ b → a = b.
Proof. intros H. by simplify_eq/=. Qed.

Lemma lookup_reset_flags_elem directions d direction :
  direction ∈ directions →
  reset_flags directions d !! ("WindGustDir_" +:+ direction) = Some (VInt 0).
Proof.
  revert d. induction directions as [|x xs IH] using rev_ind; intros d Hin.
  - by apply not_elem_of_nil in Hin.
  - unfold reset_flags. rewrite foldl_app. cbn [foldl].
    destruct (decide (x = direction)) as [->|Hne].
    + apply lookup_insert_eq.
    + rewrite lookup_insert_ne by (intros H; by apply flag_key_inj in H).
      apply IH. apply elem_of_app in Hin as [Hin|Hin]; [done|].
      by apply list_elem_of_singleton in Hin.
Qed.

Lemma lookup_reset_flags_other directions d k :
  (∀ direction, direction ∈ directions → "WindGustDir_" +:+ direction ≠ k) →
  reset_flags directions d !! k = d !! k.
Proof.
  revert d. induction directions as [|x xs IH]; intros d Hk; [done|].
  change (reset_flags (x :: xs) d)
    with (reset_flags xs (<["WindGustDir_" +:+ x := VInt 0]> d)).
  rewrite IH by (intros y Hy; apply Hk; by apply elem_of_cons; right).
  apply lookup_insert_ne, Hk. by apply elem_of_cons; left.
Qed.

Lemma None_not_direction : "None" ∉ wind_directions.
Proof. apply (bool_decide_unpack _). by vm_compute. Qed.

(** The flag of a direction of the list after all the assignments. *)
Lemma lookup_assign_flag d0 o direction :
  direction ∈ wind_directions →
  assign d0 o !! ("WindGustDir_" +:+ direction)
  = Some (VInt (if String.eqb (selected_wind_dir o) direction then 1 else 0)).
Proof.
  intros Hin. unfold assign.
  destruct (String.eqb_spec (selected_wind_dir o) direction) as [->|Hne].
  - destruct (String.eqb_spec direction "None") as [->|_]; cbn [negb].
    + by destruct None_not_direction.
    + apply lookup_insert_eq.
  - destruct (String.eqb (selected_wind_dir o) "None"); cbn [negb].
    + by apply lookup_reset_flags_elem.
    + rewrite lookup_insert_ne by (intros H; by apply flag_key_inj in H).
      by apply lookup_reset_flags_elem.
Qed.

Local Ltac skip_key :=
  rewrite lookup_insert_ne by (cbn; discriminate).

(** The sixteen widget values after all the assignments. *)
Lemma lookup_assign_scalars d0 o :
  Forall2 (λ k v, assign d0 o !! k = Some v)
    (take 16 features_list)
    [ VFloat (MinTemp o); VFloat (MaxTemp o); VFloat (Rainfall o);
      VFloat (WindGustSpeed o); VFloat (WindSpeed9am o);
      VFloat (WindSpeed3pm o); VInt (Humidity9am o); VInt (Humidity3pm o);
      VFloat (Pressure9am o); VFloat (Pressure3pm o); VInt (Cloud9am o);
      VInt (Cloud3pm o); VFloat (Temp9am o); VFloat (Temp3pm o);
      VInt (if String.eqb (rain_today_option o) "Yes" then 1 else 0);
      VInt (Month o) ].
Proof.
  cbn [take features_list].
  repeat match goal with |- Forall2 _ _ _ => constructor end; unfold assign;
    (destruct (String.eqb (selected_wind_dir o) "None"); cbn [negb];
     [|skip_key]);
    (rewrite lookup_reset_flags_other by (intros direction _; cbn; discriminate));
    repeat skip_key; apply lookup_insert_eq.
Qed.

Lemma comprehension_lookup d ks vs :
  Forall2 (λ k v, d !! k = Some v) ks vs →
  comprehension (getitem d) ks = inr vs.
Proof.
  induction 1 as [|k v ks vs Hk _ IH]; [done|].
  cbn [comprehension]. unfold getitem at 1. by rewrite Hk, IH.
Qed.

(** The list the comprehension builds from the filled dictionary,
    whatever the dictionary held before the assignments. *)
Lemma model_input_values_assign d0 o :
  model_input_values (assign d0 o)
  = inr ([ VFloat (MinTemp o); VFloat (MaxTemp o); VFloat (Rainfall o);
           VFloat (WindGustSpeed o); VFloat (WindSpeed9am o);
           VFloat (WindSpeed3pm o); VInt (Humidity9am o);
           VInt (Humidity3pm o); VFloat (Pressure9am o);
           VFloat (Pressure3pm o); VInt (Cloud9am o); VInt (Cloud3pm o);
           VFloat (Temp9am o); VFloat (Temp3pm o);
           VInt (if String.eqb (rain_today_option o) "Yes" then 1 else 0);
           VInt (Month o) ]
         ++ map (λ direction,
               VInt (if String.eqb (selected_wind_dir o) direction
                     then 1 else 0))
             wind_directions).
Proof.
  apply comprehension_lookup.
  change features_list
    with (take 16 features_list
          ++ map (String.append "WindGustDir_") wind_directions).
  apply Forall2_app; [apply lookup_assign_scalars|].
  apply Forall2_fmap, Forall_Forall2_diag, Forall_forall.
  intros direction Hin. by apply lookup_assign_flag.
Qed.
End lookups.

(** ** The direction flags *)

Section flags.
Variable selected : string.

Local Abbreviation flag :=
  (λ direction : string,
     VInt (if String.eqb selected direction then 1 else 0)).

Lemma flags_bits directions :
  Forall (λ v, v = VInt 0 ∨ v = VInt 1) (map flag directions).
Proof.
  induction directions as [|x xs IH]; [constructor|].
  cbn [map]. constructor; [|done].
  destruct (String.eqb selected x); auto.
Qed.

Lemma flags_not_selected directions :
  selected ∉ directions →
  map flag directions = replicate (length directions) (VInt 0).
Proof.
  induction directions as [|x xs IH]; intros Hnot; [done|].
  apply not_elem_of_cons in Hnot as [Hne Hnot].
  cbn [map length replicate]. rewrite IH by done.
  by destruct (String.eqb_spec selected x).
Qed.

Lemma filter_zeros n : List.filter (is_int 1) (replicate n (VInt 0)) = [].
Proof. induction n as [|n IH]; [done|exact IH]. Qed.

Lemma flags_count directions :
  NoDup directions →
  length (List.filter (is_int 1) (map flag directions))
  = if bool_decide (selected ∈ directions) then 1%nat else 0%nat.
Proof.
  induction 1 as [|x xs Hx _ IH].
  - done.
  - cbn [map List.filter].
    destruct (String.eqb_spec selected x) as [Heq|Hne];
      change (is_int 1 (VInt 1)) with true;
      change (is_int 1 (VInt 0)) with false; cbn match.
    + rewrite bool_decide_eq_true_2 by (apply elem_of_cons; by left).
      rewrite flags_not_selected by (by rewrite Heq).
      by rewrite filter_zeros.
    + rewrite IH. apply (f_equal (λ b : bool, if b then 1%nat else 0%nat)).
      apply bool_decide_ext. rewrite elem_of_cons.
      split; [by right|by intros [?|?]].
Qed.
End flags.

Lemma NoDup_wind_directions : NoDup wind_directions.
Proof. apply (bool_decide_unpack _). by vm_compute. Qed.

(** ** The feature vector *)

(** C1: whatever the widgets return, the list comprehension succeeds and
    the list it builds for the model has exactly 31 elements; the array
    handed to the model is one row of 31 elements. *)
Theorem model_input_values_length (o : observation) :
  ∃ vs, model_input_values (input_data o) = inr vs
        ∧ length vs = 31%nat
        ∧ length (final_model_input vs) = 1%nat
        ∧ Forall (λ row, length row = 31%nat) (final_model_input vs).
Proof.
  eexists. split; [apply model_input_values_assign|].
  split; [reflexivity|]. split; [reflexivity|].
  constructor; [|constructor]. by rewrite length_map.
Qed.

(** C2: the built list holds, in this order, MinTemp, MaxTemp, Rainfall,
    WindGustSpeed, WindSpeed9am, WindSpeed3pm, Humidity9am, Humidity3pm,
    Pressure9am, Pressure3pm, Cloud9am, Cloud3pm, Temp9am, Temp3pm,
    RainToday, Month, each numeric widget value as the widget returned it,
    and then the flags of ENE, ESE, N, NE, NNE, NNW, NW, S, SE, SSE, SSW, SW,
    W, WNW, WSW. *)
Theorem model_input_values_order (o : observation) :
  let flag direction :=
    VInt (if String.eqb (selected_wind_dir o) direction then 1 else 0) in
  model_input_values (input_data o)
  = inr [ VFloat (MinTemp o); VFloat (MaxTemp o); VFloat (Rainfall o);
          VFloat (WindGustSpeed o); VFloat (WindSpeed9am o);
          VFloat (WindSpeed3pm o); VInt (Humidity9am o);
          VInt (Humidity3pm o); VFloat (Pressure9am o);
          VFloat (Pressure3pm o); VInt (Cloud9am o); VInt (Cloud3pm o);
          VFloat (Temp9am o); VFloat (Temp3pm o);
          VInt (if String.eqb (rain_today_option o) "Yes" then 1 else 0);
          VInt (Month o);
          flag "ENE"; flag "ESE"; flag "N"; flag "NE"; flag "NNE";
          flag "NNW"; flag "NW"; flag "S"; flag "SE"; flag "SSE";
          flag "SSW"; flag "SW"; flag "W"; flag "WNW"; flag "WSW" ].
Proof. intros flag. apply model_input_values_assign. Qed.

(** C3: element 14 of the built list is the int 1 when the radio returned
    "Yes", the int 0 when it returned "No", and the int 0 for anything
    that is not "Yes". *)
Theorem model_input_values_RainToday (o : observation) :
  ∃ vs, model_input_values (input_data o) = inr vs
        ∧ (rain_today_option o = "Yes" → vs !! 14%nat = Some (VInt 1))
        ∧ (rain_today_option o = "No" → vs !! 14%nat = Some (VInt 0))
        ∧ (rain_today_option o ≠ "Yes" → vs !! 14%nat = Some (VInt 0)).
Proof.
  eexists. split; [apply model_input_values_assign|].
  cbn [List.app lookup list_lookup].
  destruct (String.eqb_spec (rain_today_option o) "Yes") as [->|Hne];
    repeat split; intros; done.
Qed.

Lemma model_input_values_RainToday_witness :
  ∃ vs,
    model_input_values
      (input_data (Observation 13.4 22.9 0.6 71 22 44.0 20.0 24.0 1007.7
                     1007.1 8 5 16.9 21.8 "Yes" 12 "W")) = inr vs
    ∧ vs !! 14%nat = Some (VInt 1).
Proof.
  destruct (model_input_values_RainToday
              (Observation 13.4 22.9 0.6 71 22 44.0 20.0 24.0 1007.7
                 1007.1 8 5 16.9 21.8 "Yes" 12 "W"))
    as (vs & Hvs & Hyes & _ & _).
  exists vs. split; [exact Hvs|]. apply Hyes. reflexivity.
Defined.

(** C4: whatever the radio returned, the last 15 elements of the built
    list are each the int 0 or the int 1, and at most one of them is 1. *)
Theorem model_input_values_at_most_one_flag (o : observation) :
  ∃ vs, model_input_values (input_data o) = inr vs
        ∧ length (drop 16 vs) = 15%nat
        ∧ Forall (λ v, v = VInt 0 ∨ v = VInt 1) (drop 16 vs)
        ∧ (length (List.filter (is_int 1) (drop 16 vs)) ≤ 1)%nat.
Proof.
  eexists. split; [apply model_input_values_assign|].
  change (drop 16 (?scalars ++ ?flags)) with flags.
  split; [reflexivity|]. split; [apply flags_bits|].
  rewrite flags_count by apply NoDup_wind_directions.
  case_bool_decide; lia.
Qed.

(** C5: when the selected direction is not one of the 15 labels, the list
    is built and its 15 flags are all 0; when it is the label at position
    [i] of [wind_directions], the list is built and its flags are 0 but for
    the one at position [i], which is 1. *)
Theorem model_input_values_direction (o : observation) :
  ∃ vs, model_input_values (input_data o) = inr vs
        ∧ (selected_wind_dir o ∉ wind_directions →
           drop 16 vs = replicate 15 (VInt 0))
        ∧ (∀ i : nat, wind_directions !! i = Some (selected_wind_dir o) →
           drop 16 vs = <[i := VInt 1]> (replicate 15 (VInt 0))).
Proof.
  eexists. split; [apply model_input_values_assign|].
  change (drop 16 (?scalars ++ ?flags)) with flags.
  split.
  - intros Hnot. by rewrite flags_not_selected.
  - intros i Hi.
    do 15 (destruct i as [|i]; [injection Hi as <-; reflexivity|]).
    discriminate Hi.
Qed.

Lemma model_input_values_direction_witness :
  (∃ vs,
     model_input_values
       (input_data (Observation 13.4 22.9 0.6 71 22 44.0 20.0 24.0 1007.7
                      1007.1 8 5 16.9 21.8 "No" 12 "W")) = inr vs
     ∧ drop 16 vs = <[12%nat := VInt 1]> (replicate 15 (VInt 0)))
  ∧ (∃ vs,
       model_input_values
         (input_data (Observation 13.4 22.9 0.6 71 22 44.0 20.0 24.0 1007.7
                        1007.1 8 5 16.9 21.8 "No" 12 "unknown-garbage"))
       = inr vs
       ∧ drop 16 vs = replicate 15 (VInt 0)).
Proof.
  split.
  - destruct (model_input_values_direction
                (Observation 13.4 22.9 0.6 71 22 44.0 20.0 24.0 1007.7
                   1007.1 8 5 16.9 21.8 "No" 12 "W"))
      as (vs & Hvs & _ & Hi).
    exists vs. split; [exact Hvs|]. apply Hi. reflexivity.
  - destruct (model_input_values_direction
                (Observation 13.4 22.9 0.6 71 22 44.0 20.0 24.0 1007.7
                   1007.1 8 5 16.9 21.8 "No" 12 "unknown-garbage"))
      as (vs & Hvs & Hnot & _).
    exists vs. split; [exact Hvs|]. apply Hnot.
    apply (bool_decide_unpack _). vm_compute. reflexivity.
Defined.

(** C6: the built list is a function of the observation alone.  What the
    dictionary held before the assignments does not reach the list, so a
    build that follows another build, of any observation, on the same
    dictionary gives the list that a build on the empty dictionary gives,
    and the list is always built. *)
Theorem model_input_values_deterministic (o : observation) :
  (∀ d0 d0' : gmap string value,
     model_input_values (assign d0 o) = model_input_values (assign d0' o))
  ∧ (∀ o' : observation,
       model_input_values (assign (input_data o') o)
       = model_input_values (input_data o))
  ∧ (∃ vs, model_input_values (input_data o) = inr vs).
Proof.
  split; [|split].
  - intros d0 d0'. by rewrite !model_input_values_assign.
  - intros o'. unfold input_data. by rewrite !model_input_values_assign.
  - eexists. apply model_input_values_assign.
Qed.

(** ** A run of the script *)

Lemma run_button (m : model) (o : observation) (vs : list value) :
  model_input_values (input_data o) = inr vs →
  run (inr m) o true
  = (Done tt,
     page_top
     ++ [ st_spinner "Making prediction...";
          call_predict (final_model_input vs) ]
     ++ prediction_shown (predict m (final_model_input vs))
     ++ page_bottom).
Proof.
  intros Hvs. unfold run, app_py, predict_rain_tomorrow, load_model, model_predict.
  cbv [mbind script_bind mret script_ret try_except eval emit st_stop].
  rewrite Hvs. cbn [List.app].
  destruct (predict m (final_model_input vs)) as [e|[|l ls]];
    cbn [first_label List.app prediction_shown].
  - reflexivity.
  - reflexivity.
  - destruct (is_No l); reflexivity.
Qed.

Lemma is_No_spec (l : label) : is_No l = true ↔ l = LStr "No".
Proof.
  destruct l as [s| |]; cbn [is_No]; [|by split..].
  rewrite String.eqb_eq. split; [by intros ->|by intros [= ->]].
Qed.

(** ** The call of the model *)

(** C9: when the model's [predict] raises, the run calls it once and no
    more, writes the error with the exception's text and the warning in
    place of a result, and goes on to the end of the script without
    stopping; the next interaction of the session is a run of its own with
    the same loaded model. *)
Theorem predict_exception_surfaced
    (m : model) (o : observation) (vs : list value) (e : exn) :
  model_input_values (input_data o) = inr vs →
  predict m (final_model_input vs) = inl e →
  let t :=
    page_top
    ++ [ st_spinner "Making prediction...";
         call_predict (final_model_input vs);
         st_error ("An error occurred during prediction: " +:+ exn_str e);
         st_warning "Please check your input values and ensure they are within a reasonable range for the model." ]
    ++ page_bottom in
  run (inr m) o true = (Done tt, t)
  ∧ predict_calls t = [final_model_input vs]
  ∧ ∀ rest, session (inr m) ((o, true) :: rest)
            = (Done tt, t) :: session (inr m) rest.
Proof.
  intros Hvs He t.
  assert (run (inr m) o true = (Done tt, t)) as Hrun.
  { rewrite (run_button m o vs Hvs), He. reflexivity. }
  split; [exact Hrun|]. split; [reflexivity|].
  intros rest. cbn [session map]. by rewrite Hrun.
Qed.

Lemma predict_exception_surfaced_witness :
  ∃ t,
    run (inr (failing_model (ValueError "X has 31 features")))
        default_observation true = (Done tt, t)
    ∧ predict_calls t
      = [ [ [ 13.4; 22.9; 0.6; 44.0; 20.0; 24.0; 71.0; 22.0; 1007.7; 1007.1;
              8.0; 5.0; 16.9; 21.8; 0.0; 12.0;
              0.0; 0.0; 0.0; 0.0; 0.0; 0.0; 0.0; 0.0; 0.0; 0.0; 0.0; 0.0;
              0.0; 0.0; 0.0 ]%float ] ].
Proof.
  eexists.
  destruct (predict_exception_surfaced
              (failing_model (ValueError "X has 31 features"))
              default_observation _ (ValueError "X has 31 features")
              default_vector eq_refl)
    as (Hrun & Hcalls & _).
  split; [exact Hrun|exact Hcalls].
Defined.

(** C10: when the model's [predict] returns, the run shows the "No" metric
    when the first label of the result is the string 'No', and the "Yes"
    metric for any other first label. *)
Theorem prediction_rendered
    (m : model) (o : observation) (vs : list value)
    (l : label) (ls : list label) :
  model_input_values (input_data o) = inr vs →
  predict m (final_model_input vs) = inr (l :: ls) →
  (l = LStr "No" →
   run (inr m) o true
   = (Done tt,
      page_top
      ++ [ st_spinner "Making prediction...";
           call_predict (final_model_input vs);
           st_success "Prediction Complete!";
           st_balloons;
           st_metric "Will it rain tomorrow?" "No ☀️" "Clear skies expected!";
           st_markdown "Enjoy your day!" ]
      ++ page_bottom))
  ∧ (l ≠ LStr "No" →
     run (inr m) o true
     = (Done tt,
        page_top
        ++ [ st_spinner "Making prediction...";
             call_predict (final_model_input vs);
             st_success "Prediction Complete!";
             st_snow;
             st_metric "Will it rain tomorrow?" "Yes 🌧️"
               "Rain is likely! Don't forget your umbrella!";
             st_markdown "Be prepared for some wet weather." ]
        ++ page_bottom)).
Proof.
  intros Hvs Hl. rewrite (run_button m o vs Hvs), Hl.
  cbn [prediction_shown]. split.
  - intros ->. reflexivity.
  - intros Hne. destruct (is_No l) eqn:HNo; [|reflexivity].
    by apply is_No_spec in HNo.
Qed.

Lemma prediction_rendered_witness :
  (∃ t, run (inr (constant_model (LStr "No"))) default_observation true
        = (Done tt, t)
        ∧ st_metric "Will it rain tomorrow?" "No ☀️" "Clear skies expected!"
          ∈ t)
  ∧ (∃ t, run (inr (constant_model (LStr "Maybe"))) default_observation true
          = (Done tt, t)
          ∧ st_metric "Will it rain tomorrow?" "Yes 🌧️"
              "Rain is likely! Don't forget your umbrella!" ∈ t).
Proof.
  split.
  - destruct (prediction_rendered (constant_model (LStr "No"))
                default_observation _ (LStr "No") [] default_vector eq_refl)
      as [HNo _].
    eexists. split; [apply HNo; reflexivity|].
    apply elem_of_app. right. do 4 apply list_elem_of_further.
    apply list_elem_of_here.
  - destruct (prediction_rendered (constant_model (LStr "Maybe"))
                default_observation _ (LStr "Maybe") [] default_vector eq_refl)
      as [_ HYes].
    eexists. split; [apply HYes; discriminate|].
    apply elem_of_app. right. do 4 apply list_elem_of_further.
    apply list_elem_of_here.
Defined.

(** ** The comprehension on any dictionary *)

Lemma comprehension_getitem_inr
    (d : gmap string value) (ks : list string) (vs : list value) :
  comprehension (getitem d) ks = inr vs
  ↔ Forall2 (λ k v, d !! k = Some v) ks vs.
Proof.
  split; [|apply comprehension_lookup].
  revert vs. induction ks as [|k ks IH]; intros vs; cbn [comprehension].
  - intros [= <-]. constructor.
  - unfold getitem at 1. destruct (d !! k) as [v|] eqn:Hk; [|done].
    destruct (comprehension (getitem d) ks) as [e|vs']; [done|].
    intros [= <-]. constructor; [done|by apply IH].
Qed.

(** X1: the comprehension returns a list exactly when the list holds, name
    by name in the order of [features_list], the values the dictionary has
    under the names; so it returns a list exactly when every name of
    [features_list] is a key, and the list then has 31 elements. *)
Theorem model_input_values_inr (d : gmap string value) :
  (∀ vs, model_input_values d = inr vs
         ↔ Forall2 (λ k v, d !! k = Some v) features_list vs)
  ∧ ((∃ vs, model_input_values d = inr vs)
     ↔ Forall (λ k, is_Some (d !! k)) features_list)
  ∧ (∀ vs, model_input_values d = inr vs → length vs = 31%nat).
Proof.
  split; [|split].
  - intros vs. apply comprehension_getitem_inr.
  - split.
    + intros [vs Hvs]. apply comprehension_getitem_inr in Hvs.
      induction Hvs; constructor; eauto.
    + intros Hall. destruct (model_input_values d) as [e|vs] eqn:Hd; [|eauto].
      exfalso. unfold model_input_values in Hd.
      induction Hall as [|k ks [v Hk] _ IH]; [done|].
      cbn [comprehension] in Hd. unfold getitem at 1 in Hd. rewrite Hk in Hd.
      destruct (comprehension (getitem d) ks); [by eapply IH|done].
  - intros vs Hvs. apply comprehension_getitem_inr in Hvs.
    by apply Forall2_length in Hvs.
Qed.

(** X2: the comprehension reads the dictionary under the names of
    [features_list] and nowhere else: two dictionaries that agree under
    these names give the same list, or the same [KeyError]. *)
Theorem model_input_values_reads_features (d d' : gmap string value) :
  (∀ k, k ∈ features_list → d !! k = d' !! k) →
  model_input_values d = model_input_values d'.
Proof.
  unfold model_input_values. generalize features_list as ks.
  induction ks as [|k ks IH]; intros Hagree; [done|].
  cbn [comprehension]. unfold getitem at 1 3.
  rewrite (Hagree k) by (by apply elem_of_cons; left).
  rewrite IH; [done|]. intros k' Hk'. apply Hagree. by apply elem_of_cons; right.
Qed.

Lemma model_input_values_reads_features_witness :
  model_input_values
    (<["WindGustDir_unknown" := VInt 1]> (input_data default_observation))
  = model_input_values (input_data default_observation).
Proof.
  apply model_input_values_reads_features.
  intros k Hk. apply lookup_insert_ne. intros <-.
  revert Hk. apply (bool_decide_unpack _). vm_compute. reflexivity.
Defined.

(** ** The loop over the directions *)

(** X3: the loop that initialises the flags sets the key of each of the
    15 directions to the int 0 and leaves every other key of the dictionary
    as it was. *)
Theorem reset_flags_lookup (d : gmap string value) (k : string) :
  reset_flags wind_directions d !! k
  = if bool_decide (k ∈ map (String.append "WindGustDir_") wind_directions)
    then Some (VInt 0)
    else d !! k.
Proof.
  case_bool_decide as Hk.
  - apply list_elem_of_fmap in Hk as (direction & -> & Hin).
    by apply lookup_reset_flags_elem.
  - apply lookup_reset_flags_other. intros direction Hin <-.
    apply Hk. by apply list_elem_of_fmap_2.
Qed.

(** ** The keys of [input_data] *)

Lemma dom_reset_flags (d : gmap string value) :
  dom (reset_flags wind_directions d)
  = list_to_set (map (String.append "WindGustDir_") wind_directions) ∪ dom d.
Proof.
  apply set_eq. intros k.
  rewrite elem_of_union, elem_of_list_to_set, !elem_of_dom.
  destruct (decide (k ∈ map (String.append "WindGustDir_") wind_directions))
    as [Hk|Hk].
  - apply list_elem_of_fmap in Hk as (direction & -> & Hin).
    rewrite lookup_reset_flags_elem by done.
    split; [intros _; left; by apply list_elem_of_fmap_2|by eexists].
  - rewrite lookup_reset_flags_other; [tauto|].
    intros direction Hin <-. apply Hk. by apply list_elem_of_fmap_2.
Qed.

Lemma dom_input_data (o : observation) :
  dom (input_data o)
  = (if String.eqb (selected_wind_dir o) "None" then ∅
     else {[ "WindGustDir_" +:+ selected_wind_dir o ]})
    ∪ list_to_set features_list.
Proof.
  unfold input_data, assign.
  destruct (String.eqb (selected_wind_dir o) "None"); cbn [negb];
    rewrite ?dom_insert_L, dom_reset_flags, !dom_insert_L, dom_empty_L;
    apply set_eq; intros k;
    rewrite !elem_of_union, !elem_of_list_to_set, !elem_of_singleton;
    change features_list
      with (take 16 features_list
            ++ map (String.append "WindGustDir_") wind_directions);
    rewrite elem_of_app; cbn [take features_list];
    rewrite !elem_of_cons, elem_of_nil, elem_of_empty; tauto.
Qed.

(** X4: when the selected direction is an option of the radio, the keys of
    the filled dictionary are the 31 names of [features_list] and no other;
    any other selection adds one key, which is not a name of
    [features_list]. *)
Theorem input_data_keys (o : observation) :
  (radio_option ("None" :: wind_directions) (selected_wind_dir o) = true →
   dom (input_data o) = list_to_set features_list)
  ∧ (radio_option ("None" :: wind_directions) (selected_wind_dir o) = false →
     dom (input_data o)
     = {[ "WindGustDir_" +:+ selected_wind_dir o ]} ∪ list_to_set features_list
     ∧ "WindGustDir_" +:+ selected_wind_dir o ∉ features_list).
Proof.
  rewrite dom_input_data. unfold radio_option. split; intros Hsel.
  - apply bool_decide_eq_true in Hsel. apply elem_of_cons in Hsel as [->|Hsel].
    + cbn. apply (left_id_L ∅ (∪)).
    + destruct (String.eqb_spec (selected_wind_dir o) "None") as [Heq|_].
      { apply (left_id_L ∅ (∪)). }
      apply set_eq. intros k.
      rewrite elem_of_union, elem_of_singleton, elem_of_list_to_set.
      split; [|by right]. intros [->|Hk]; [|done].
      change features_list
        with (take 16 features_list
              ++ map (String.append "WindGustDir_") wind_directions).
      apply elem_of_app. right. by apply list_elem_of_fmap_2.
  - apply bool_decide_eq_false in Hsel.
    destruct (String.eqb_spec (selected_wind_dir o) "None") as [Heq|_].
    { destruct Hsel. rewrite Heq. by apply elem_of_cons; left. }
    split; [done|].
    change features_list
      with (take 16 features_list
            ++ map (String.append "WindGustDir_") wind_directions).
    intros [Hk|Hk]%elem_of_app.
    + revert Hk. cbn [take features_list]. rewrite !elem_of_cons, elem_of_nil.
      cbn. intuition discriminate.
    + apply list_elem_of_fmap in Hk as (direction & Heq & Hin).
      apply flag_key_inj in Heq. apply Hsel. rewrite Heq.
      by apply elem_of_cons; right.
Qed.

Lemma input_data_keys_witness :
  dom (input_data (Observation 13.4 22.9 0.6 71 22 44.0 20.0 24.0 1007.7
                     1007.1 8 5 16.9 21.8 "No" 12 "W"))
  = list_to_set features_list
  ∧ dom (input_data (Observation 13.4 22.9 0.6 71 22 44.0 20.0 24.0 1007.7
                       1007.1 8 5 16.9 21.8 "No" 12 "unknown"))
    = {[ "WindGustDir_unknown" ]} ∪ list_to_set features_list.
Proof.
  split.
  - destruct (input_data_keys
                (Observation 13.4 22.9 0.6 71 22 44.0 20.0 24.0 1007.7
                   1007.1 8 5 16.9 21.8 "No" 12 "W")) as [Hin _].
    apply Hin. vm_compute. reflexivity.
  - destruct (input_data_keys
                (Observation 13.4 22.9 0.6 71 22 44.0 20.0 24.0 1007.7
                   1007.1 8 5 16.9 21.8 "No" 12 "unknown")) as [_ Hout].
    apply Hout. vm_compute. reflexivity.
Defined.

(** ** From the list back to the form *)

Lemma flags_selected (s1 s2 : string) (directions : list string) :
  s1 ∈ directions →
  map (λ direction : string, VInt (if String.eqb s1 direction then 1 else 0))
      directions
  = map (λ direction : string, VInt (if String.eqb s2 direction then 1 else 0))
        directions →
  s2 = s1.
Proof.
  induction directions as [|x xs IH]; intros Hin Heq.
  - by apply not_elem_of_nil in Hin.
  - cbn [map] in Heq. injection Heq as Hx Hxs.
    apply elem_of_cons in Hin as [->|Hin]; [|by apply IH].
    rewrite String.eqb_refl in Hx.
    by destruct (String.eqb_spec s2 x).
Qed.

(** X5: the list keeps everything a form of the widgets holds: two
    observations the widgets can return that give the same list are the
    same observation. *)
Theorem model_input_values_injective (o1 o2 : observation) :
  valid_observation o1 = true →
  valid_observation o2 = true →
  model_input_values (input_data o1) = model_input_values (input_data o2) →
  o1 = o2.
Proof.
  intros Hv1 Hv2 Heq. unfold input_data in Heq.
  rewrite !model_input_values_assign in Heq.
  apply (inj inr), app_inj_1 in Heq as [Hscalars Hflags]; [|done].
  unfold valid_observation, radio_option in Hv1, Hv2.
  rewrite !andb_true_iff, !bool_decide_eq_true in Hv1, Hv2.
  destruct Hv1 as ((((((_ & _) & _) & _) & Hrain1) & _) & Hsel1).
  destruct Hv2 as ((((((_ & _) & _) & _) & Hrain2) & _) & Hsel2).
  destruct o1 as [? ? ? ? ? ? ? ? ? ? ? ? ? ? rain1 ? sel1].
  destruct o2 as [? ? ? ? ? ? ? ? ? ? ? ? ? ? rain2 ? sel2].
  cbn in Hscalars.
  cbn [rain_today_option selected_wind_dir] in Hflags, Hrain1, Hrain2, Hsel1, Hsel2.
  assert (rain1 = rain2) as ->.
  { injection Hscalars as _ _ _ _ _ _ _ _ _ _ _ _ _ _ Hrain _.
    rewrite !elem_of_cons, elem_of_nil in Hrain1, Hrain2.
    destruct Hrain1 as [->|[->|[]]], Hrain2 as [->|[->|[]]];
      done || discriminate Hrain. }
  assert (sel1 = sel2) as ->.
  { apply elem_of_cons in Hsel1 as [->|Hsel1].
    - apply elem_of_cons in Hsel2 as [->|Hsel2]; [done|].
      symmetry in Hflags.
      by apply (flags_selected _ _ wind_directions) in Hflags.
    - symmetry. by apply (flags_selected _ _ wind_directions) in Hflags. }
  by simplify_eq.
Qed.

Lemma model_input_values_injective_witness :
  move_sliders default_observation 71 22 8 5 = default_observation.
Proof.
  apply model_input_values_injective; vm_compute; reflexivity.
Defined.

(** ** Every run of the script *)

Lemma run_loaded (m : model) (o : observation) (button : bool) :
  ∃ vs,
    model_input_values (input_data o) = inr vs
    ∧ length vs = 31%nat
    ∧ run (inr m) o button
      = (Done tt,
         page_top
         ++ (if button
             then [ st_spinner "Making prediction...";
                    call_predict (final_model_input vs) ]
                  ++ prediction_shown (predict m (final_model_input vs))
             else [])
         ++ page_bottom).
Proof.
  eexists. split; [apply model_input_values_assign|]. split; [reflexivity|].
  destruct button.
  - rewrite <- app_assoc. apply run_button, model_input_values_assign.
  - reflexivity.
Qed.

Lemma run_not_loaded (e : exn) (o : observation) (button : bool) :
  run (inl e) o button
  = (Stop,
     [ st_error
         (if isinstance e "FileNotFoundError"
          then "Error: 'rain_model.pkl' not found. Please ensure the model file is in the same directory as this script."
          else "Error loading the model: " +:+ exn_str e) ]).
Proof.
  unfold run, app_py, load_model.
  cbv [mbind script_bind mret script_ret try_except eval emit st_stop].
  by destruct (isinstance e "FileNotFoundError").
Qed.

Lemma predict_calls_prediction_shown (r : result (list label)) :
  predict_calls (prediction_shown r) = [].
Proof. destruct r as [e|[|l ls]]; [done..|]. cbn. by destruct (is_No l). Qed.

Lemma elem_of_predict_calls (X : list (list float)) (t : list action) :
  call_predict X ∈ t ↔ X ∈ predict_calls t.
Proof.
  unfold predict_calls. rewrite list_elem_of_omap. split.
  - intros Hin. by exists (call_predict X).
  - intros (a & Hin & Ha). destruct a; try done. by injection Ha as ->.
Qed.

(** X6: when loading the model raises, the run writes one error and stops
    there, whatever the widgets hold and whether or not the button is
    pressed: the fixed text for an instance of [FileNotFoundError], of the
    class itself or of a class that inherits from it, the exception's own
    text after "Error loading the model: " for any other exception; nothing
    of the form is written and the model is not called. *)
Theorem load_failure_stops (e : exn) (o : observation) (button : bool) :
  ∃ t,
    run (inl e) o button = (Stop, t)
    ∧ t = [ st_error
              (if isinstance e "FileNotFoundError"
               then "Error: 'rain_model.pkl' not found. Please ensure the model file is in the same directory as this script."
               else "Error loading the model: " +:+ exn_str e) ]
    ∧ predict_calls t = [].
Proof. eexists. split; [apply run_not_loaded|]. by split. Qed.

(** X7: when the model loads, every run goes to the end of the script: no
    exception leaves it and nothing stops it, whatever the widgets return
    and whatever [predict] returns or raises; the run calls [predict] once
    when the button is pressed and not at all when it is not. *)
Theorem run_completes (m : model) (o : observation) (button : bool) :
  ∃ t,
    run (inr m) o button = (Done tt, t)
    ∧ length (predict_calls t) = (if button then 1 else 0)%nat.
Proof.
  destruct (run_loaded m o button) as (vs & _ & _ & ->).
  eexists. split; [reflexivity|].
  unfold predict_calls. rewrite !omap_app.
  destruct button; [|reflexivity].
  rewrite omap_app. fold (predict_calls (prediction_shown
                                           (predict m (final_model_input vs)))).
  by rewrite predict_calls_prediction_shown.
Qed.

(** Without a press of the button the run writes the form and the caption
    and nothing between them, for every observation and every model. *)
Lemma run_without_button (m : model) (o : observation) :
  run (inr m) o false = (Done tt, page_top ++ page_bottom).
Proof. by destruct (run_loaded m o false) as (vs & _ & _ & ->). Qed.

(** X8: what a run of a form of the widgets hands to [predict] is a float64
    array of one row of 31 elements: the floats of the number inputs as
    they are, the ints of the sliders and the RainToday flag as the floats
    of the same numbers, and the 15 direction flags as 0.0 or 1.0, in the
    order of [features_list]. *)
Theorem predict_argument_shape
    (jl_load : result model) (o : observation) (button : bool)
    (X : list (list float)) :
  valid_observation o = true →
  call_predict X ∈ (run jl_load o button).2 →
  let flag (direction : string) : float :=
    (if String.eqb (selected_wind_dir o) direction then 1 else 0)%float in
  X = [ [ MinTemp o; MaxTemp o; Rainfall o; WindGustSpeed o; WindSpeed9am o;
          WindSpeed3pm o; float_of_int (Humidity9am o);
          float_of_int (Humidity3pm o); Pressure9am o; Pressure3pm o;
          float_of_int (Cloud9am o); float_of_int (Cloud3pm o);
          Temp9am o; Temp3pm o;
          (if String.eqb (rain_today_option o) "Yes" then 1 else 0)%float;
          float_of_int (Month o);
          flag "ENE"; flag "ESE"; flag "N"; flag "NE"; flag "NNE";
          flag "NNW"; flag "NW"; flag "S"; flag "SE"; flag "SSE";
          flag "SSW"; flag "SW"; flag "W"; flag "WNW"; flag "WSW" ] ]
  ∧ Forall (λ row, length row = 31%nat) X.
Proof.
  intros _. rewrite elem_of_predict_calls. destruct jl_load as [e|m].
  - rewrite run_not_loaded. cbn. by intros ?%not_elem_of_nil.
  - destruct (run_loaded m o button) as (vs & Hvs & Hlen & ->).
    unfold input_data in Hvs. rewrite model_input_values_assign in Hvs.
    injection Hvs as <-.
    cbn [snd]. unfold predict_calls. rewrite !omap_app.
    destruct button; [|by intros ?%not_elem_of_nil].
    rewrite omap_app.
    match goal with
    | |- context [omap ?f (prediction_shown ?r)] =>
        change (omap f (prediction_shown r))
          with (predict_calls (prediction_shown r))
    end.
    rewrite predict_calls_prediction_shown.
    cbn [omap page_top page_bottom List.app].
    intros ->%list_elem_of_singleton. cbn zeta. split.
    + unfold final_model_input. cbn [map List.app wind_directions float64].
      repeat f_equal;
        match goal with
        | |- context [String.eqb ?a ?b] => by destruct (String.eqb a b)
        end.
    + by repeat constructor.
Qed.

Lemma predict_argument_shape_witness :
  [ [ 13.4; 22.9; 0.6; 44.0; 20.0; 24.0; 71.0; 22.0; 1007.7; 1007.1;
      8.0; 5.0; 16.9; 21.8; 0.0; 12.0;
      0.0; 0.0; 0.0; 0.0; 0.0; 0.0; 0.0; 0.0; 0.0; 0.0; 0.0; 0.0;
      1.0; 0.0; 0.0 ]%float ]
  = [ [ 13.4; 22.9; 0.6; 44.0; 20.0; 24.0; float_of_int 71; float_of_int 22;
        1007.7; 1007.1; float_of_int 8; float_of_int 5; 16.9; 21.8; 0.0;
        float_of_int 12;
        0.0; 0.0; 0.0; 0.0; 0.0; 0.0; 0.0; 0.0; 0.0; 0.0; 0.0; 0.0;
        1.0; 0.0; 0.0 ]%float ]
  ∧ Forall (λ row : list float, length row = 31%nat)
      [ [ 13.4; 22.9; 0.6; 44.0; 20.0; 24.0; 71.0; 22.0; 1007.7; 1007.1;
          8.0; 5.0; 16.9; 21.8; 0.0; 12.0;
          0.0; 0.0; 0.0; 0.0; 0.0; 0.0; 0.0; 0.0; 0.0; 0.0; 0.0; 0.0;
          1.0; 0.0; 0.0 ]%float ].
Proof.
  apply (predict_argument_shape (inr (constant_model (LStr "Yes")))
           (Observation 13.4 22.9 0.6 71 22 44.0 20.0 24.0 1007.7
              1007.1 8 5 16.9 21.8 "No" 12 "W") true).
  - vm_compute. reflexivity.
  - vm_compute. do 10 apply list_elem_of_further. apply list_elem_of_here.
Defined.

(** X9: a run shows a metric only for a prediction: if a metric is on the
    page, the model was loaded, the button was pressed and [predict]
    returned an array with a first label, and the metric is the "No" one
    when that label is the string 'No' and the "Yes" one when it is not.
    No metric is shown when loading fails, when [predict] raises or when it
    returns an empty array. *)
Theorem metric_needs_prediction
    (jl_load : result model) (o : observation) (button : bool)
    (lab val delta : string) :
  st_metric lab val delta ∈ (run jl_load o button).2 →
  button = true
  ∧ ∃ m vs l ls,
      jl_load = inr m
      ∧ model_input_values (input_data o) = inr vs
      ∧ predict m (final_model_input vs) = inr (l :: ls)
      ∧ (lab, val, delta)
        = (if is_No l
           then ("Will it rain tomorrow?", "No ☀️", "Clear skies expected!")
           else ("Will it rain tomorrow?", "Yes 🌧️",
                 "Rain is likely! Don't forget your umbrella!")).
Proof.
  destruct jl_load as [e|m].
  - rewrite run_not_loaded. cbn [snd].
    rewrite list_elem_of_singleton. discriminate.
  - destruct (run_loaded m o button) as (vs & Hvs & _ & ->). cbn [snd].
    unfold page_top, page_bottom.
    rewrite !elem_of_app, !elem_of_cons, !elem_of_nil.
    intros [Htop|[Hmid|Hbottom]].
    + repeat (destruct Htop as [Htop|Htop]; [discriminate Htop|]). done.
    + destruct button; [|by apply elem_of_nil in Hmid].
      split; [done|]. exists m, vs.
      apply elem_of_app in Hmid as [Hmid|Hmid].
      { rewrite !elem_of_cons, elem_of_nil in Hmid.
        repeat (destruct Hmid as [Hmid|Hmid]; [discriminate Hmid|]). done. }
      destruct (predict m (final_model_input vs)) as [e|[|l ls]];
        cbn [prediction_shown] in Hmid.
      * rewrite !elem_of_cons, elem_of_nil in Hmid.
        repeat (destruct Hmid as [Hmid|Hmid]; [discriminate Hmid|]). done.
      * rewrite !elem_of_cons, elem_of_nil in Hmid.
        repeat (destruct Hmid as [Hmid|Hmid]; [discriminate Hmid|]). done.
      * exists l, ls. repeat split; try done.
        destruct (is_No l);
          rewrite !elem_of_cons, elem_of_nil in Hmid;
          destruct Hmid as [Hmid|[Hmid|[Hmid|[Hmid|[]]]]];
          try discriminate Hmid; by injection Hmid as -> -> ->.
    + repeat (destruct Hbottom as [Hbottom|Hbottom]; [discriminate Hbottom|]).
      done.
Qed.

Lemma metric_needs_prediction_witness :
  true = true
  ∧ ∃ m vs l ls,
      (inr (constant_model (LInt 0)) : result model) = inr m
      ∧ model_input_values (input_data default_observation) = inr vs
      ∧ predict m (final_model_input vs) = inr (l :: ls)
      ∧ ("Will it rain tomorrow?", "Yes 🌧️",
         "Rain is likely! Don't forget your umbrella!")
        = (if is_No l
           then ("Will it rain tomorrow?", "No ☀️", "Clear skies expected!")
           else ("Will it rain tomorrow?", "Yes 🌧️",
                 "Rain is likely! Don't forget your umbrella!")).
Proof.
  apply (metric_needs_prediction (inr (constant_model (LInt 0)))
           default_observation true).
  vm_compute. do 13 apply list_elem_of_further. apply list_elem_of_here.
Defined.
